(** * The dashboard index view

    A shallow embedding of [dashboard/views.py] and the properties of its
    single request handler, [index].

    The handler talks to three collaborators that live outside the
    repository: the [requests] HTTP client, the JSON decoder behind
    [Response.json()] and Django's [render] shortcut.  The HTTP client is
    modelled through the world the handler runs in (an oracle for the
    upstream endpoint plus a log of the calls that were made); the decoder
    and the template engine are parameters of the development. *)

From Stdlib Require Import ZArith Ascii String.
From Stdlib Require Import Floats.SpecFloat.
From stdpp Require Import gmap strings list.

Set Warnings "-register-all".
Set Default Proof Using "Type".

(** ** Python values *)

(** A Python [str] is a sequence of Unicode code points; [len] counts code
    points, not bytes. *)
Abbreviation pystr := (list N).

(** The [str] denoted by an ASCII literal of the source. *)
Definition py (s : string) : pystr :=
  (λ c, N_of_ascii c) <$> list_ascii_of_string s.

(** The values a JSON document decodes to, which are also the values the
    handler binds in the template context. *)
Inductive PyValue :=
| PyNone
| PyBool (b : bool)
| PyInt (n : Z)
| PyFloat (x : spec_float)
| PyStr (s : pystr)
| PyList (l : list PyValue)
| PyDict (d : gmap pystr PyValue).

(** [type(v).__name__], as it appears in the message of a [TypeError]. *)
Definition type_name (v : PyValue) : string :=
  match v with
  | PyNone => "NoneType"
  | PyBool _ => "bool"
  | PyInt _ => "int"
  | PyFloat _ => "float"
  | PyStr _ => "str"
  | PyList _ => "list"
  | PyDict _ => "dict"
  end.

(** ** Exceptions and outcomes *)

Inductive PyExc :=
| ConnectionError (msg : string)
| ReadTimeout (msg : string)
| JSONDecodeError (msg : string)
| TypeError (msg : string)
| TemplateDoesNotExist (msg : string)
| OtherError (msg : string).

(** A Python expression either evaluates to a value or raises. *)
Inductive Outcome (A : Type) :=
| Return (a : A)
| Raise (e : PyExc).
Arguments Return {A} a.
Arguments Raise {A} e.

Definition returned {A} (o : Outcome A) : Prop := ∃ a, o = Return a.
Definition raised {A} (o : Outcome A) : Prop := ∃ e, o = Raise e.

(** ** The builtin [len] *)

(** [len] is defined on the sized types; on every other type it raises
    [TypeError: object of type '...' has no len()]. *)
Definition len (v : PyValue) : Outcome Z :=
  match v with
  | PyStr s => Return (Z.of_nat (length s))
  | PyList l => Return (Z.of_nat (length l))
  | PyDict d => Return (Z.of_nat (size d))
  | _ => Raise (TypeError ("object of type '" +:+ type_name v +:+ "' has no len()"))
  end.

(** ** Requests, responses and the world *)

(** The inbound Django request. *)
Record HttpRequest := {
  method : pystr;
  path : pystr;
  GET : list (pystr * pystr);
  headers : gmap pystr pystr;
  body : list Byte.byte }.

(** The response the view returns to Django. *)
Record HttpResponse := {
  http_status : Z;
  http_content : list Byte.byte }.

(** A [requests.Response]: what came back from the upstream endpoint. *)
Record Response := {
  status_code : Z;
  content : list Byte.byte }.

(** [django.conf.settings], as far as the view reads it. *)
Record Settings := { API_URL : pystr }.

(** The arguments of one call [requests.get(url, params=None, **kwargs)]. *)
Record GetCall := {
  get_url : pystr;
  get_params : option PyValue;
  get_kwargs : gmap pystr PyValue }.

(** The arguments of one call [render(request, template_name, context)]. *)
Record RenderCall := {
  render_request : HttpRequest;
  render_template_name : pystr;
  render_context : gmap pystr PyValue }.

(** What the handler does to the outside, in program order. *)
Inductive Event :=
| EvGet (c : GetCall)
| EvRender (c : RenderCall).

Definition gets (t : list Event) : list GetCall :=
  omap (λ e, match e with EvGet c => Some c | _ => None end) t.

Definition renders (t : list Event) : list RenderCall :=
  omap (λ e, match e with EvRender c => Some c | _ => None end) t.

(** The world an invocation runs in.  [upstream k c] is what the network
    answers to the [k]-th outbound call of the process when that call is
    [c]: a response, or the transport error [requests.get] raises.
    [store] stands for the persistent state the process can reach
    (database rows, cache entries, sessions). *)
Record World := {
  settings : Settings;
  upstream : nat → GetCall → Outcome Response;
  store : gmap pystr PyValue;
  trace : list Event }.

Definition log (e : Event) (w : World) : World :=
  {| settings := settings w;
     upstream := upstream w;
     store := store w;
     trace := trace w ++ [e] |}.

(** Reconfiguring the process between two requests. *)
Definition set_API_URL (url : pystr) (w : World) : World :=
  {| settings := {| API_URL := url |};
     upstream := upstream w;
     store := store w;
     trace := trace w |}.

(** ** Computations: state passing with exceptions *)

Definition M (A : Type) : Type := World → Outcome A * World.

Global Instance M_ret : MRet M := λ A a w, (Return a, w).

Global Instance M_bind : MBind M := λ A B f m w,
  match m w with
  | (Return a, w') => f a w'
  | (Raise e, w') => (Raise e, w')
  end.

(** An expression without effects, which may still raise. *)
Definition lift {A} (o : Outcome A) : M A := λ w, (o, w).

(** ** The collaborators *)

(** [settings.API_URL]: read from the live settings object. *)
Definition settings_API_URL : M pystr :=
  λ w, (Return (API_URL (settings w)), w).

(** [requests.get(url)]: one outbound GET with the defaults of every
    optional argument; it returns the response or raises whatever the
    transport raised. *)
Definition requests_get (url : pystr) : M Response :=
  λ w,
    let c := {| get_url := url; get_params := None; get_kwargs := ∅ |} in
    (upstream w (length (gets (trace w))) c, log (EvGet c) w).

(** ** A reference decoder and a reference template engine

    The theorems below hold for every decoder and every template engine.
    To run the view on concrete bodies we also fix one of each.  The
    decoder covers the fragment of JSON written with ASCII characters,
    without escape sequences in strings and without fractions or
    exponents; a body outside the fragment is reported as undecodable.
    Like Python's decoder it also reads the names [NaN], [Infinity] and
    [-Infinity], which are no JSON, as floats. *)

Module Json.

Definition is_ws (c : N) : bool :=
  ((c =? 32) || (c =? 9) || (c =? 10) || (c =? 13))%N.

Fixpoint skip_ws (s : list N) : list N :=
  match s with
  | c :: s' => if is_ws c then skip_ws s' else s
  | [] => []
  end.

Definition is_digit (c : N) : bool := ((48 <=? c) && (c <=? 57))%N.

(** A run of decimal digits, accumulated most significant first. *)
Fixpoint digits (acc : Z) (s : list N) : Z * list N :=
  match s with
  | c :: s' =>
      if is_digit c then digits (10 * acc + Z.of_N (c - 48)) s' else (acc, s)
  | [] => (acc, [])
  end.

(** An integer without its sign: a lone [0], or a run of digits that
    does not start with [0]. *)
Definition natural (s : list N) : option (Z * list N) :=
  match s with
  | c :: s' =>
      if (c =? 48)%N then Some (0%Z, s')
      else if is_digit c then Some (digits 0 s)
      else None
  | [] => None
  end.

(** The characters of a string up to its closing quote. *)
Fixpoint chars (s : list N) : option (pystr * list N) :=
  match s with
  | [] => None
  | c :: s' =>
      if (c =? 34)%N then Some ([], s')
      else if ((c =? 92) || (c <? 32) || (127 <? c))%N then None
      else
        match chars s' with
        | Some (cs, rest) => Some (c :: cs, rest)
        | None => None
        end
  end.

Section Containers.

Variable item : list N → option (PyValue * list N).

(** The elements of an array after its first, up to the bracket. *)
Fixpoint elements (n : nat) (s : list N) : option (list PyValue * list N) :=
  match n with
  | O => None
  | S n =>
      match skip_ws s with
      | 93%N :: rest => Some ([], rest)
      | 44%N :: rest =>
          match item rest with
          | Some (v, rest') =>
              match elements n rest' with
              | Some (vs, rest'') => Some (v :: vs, rest'')
              | None => None
              end
          | None => None
          end
      | _ => None
      end
  end.

(** One [key: value] pair of an object. *)
Definition member (s : list N) : option ((pystr * PyValue) * list N) :=
  match skip_ws s with
  | 34%N :: rest =>
      match chars rest with
      | Some (k, rest') =>
          match skip_ws rest' with
          | 58%N :: rest'' =>
              match item rest'' with
              | Some (v, rest3) => Some ((k, v), rest3)
              | None => None
              end
          | _ => None
          end
      | None => None
      end
  | _ => None
  end.

(** The pairs of an object after its first, up to the brace. *)
Fixpoint members (n : nat) (s : list N)
    : option (list (pystr * PyValue) * list N) :=
  match n with
  | O => None
  | S n =>
      match skip_ws s with
      | 125%N :: rest => Some ([], rest)
      | 44%N :: rest =>
          match member rest with
          | Some (kv, rest') =>
              match members n rest' with
              | Some (kvs, rest'') => Some (kv :: kvs, rest'')
              | None => None
              end
          | None => None
          end
      | _ => None
      end
  end.

End Containers.

(** [strip p s]: what follows the prefix [p] of [s]. *)
Fixpoint strip (p s : list N) : option (list N) :=
  match p, s with
  | [], _ => Some s
  | a :: p', b :: s' => if (a =? b)%N then strip p' s' else None
  | _ :: _, [] => None
  end.

(** The names of the non-finite floats, which Python's decoder accepts. *)
Definition non_finite (s : list N) : option (PyValue * list N) :=
  match strip (py "NaN") s with
  | Some rest => Some (PyFloat S754_nan, rest)
  | None =>
      match strip (py "Infinity") s with
      | Some rest => Some (PyFloat (S754_infinity false), rest)
      | None =>
          match strip (py "-Infinity") s with
          | Some rest => Some (PyFloat (S754_infinity true), rest)
          | None => None
          end
      end
  end.

(** A later pair with the same key replaces an earlier one. *)
Definition dict_of (kvs : list (pystr * PyValue)) : gmap pystr PyValue :=
  foldl (λ d kv, <[kv.1 := kv.2]> d) ∅ kvs.

Fixpoint value (fuel : nat) (s : list N) : option (PyValue * list N) :=
  match fuel with
  | O => None
  | S fuel =>
      match non_finite (skip_ws s) with
      | Some found => Some found
      | None =>
      match skip_ws s with
      | 110%N :: 117%N :: 108%N :: 108%N :: rest => Some (PyNone, rest)
      | 116%N :: 114%N :: 117%N :: 101%N :: rest => Some (PyBool true, rest)
      | 102%N :: 97%N :: 108%N :: 115%N :: 101%N :: rest =>
          Some (PyBool false, rest)
      | 34%N :: rest =>
          match chars rest with
          | Some (cs, rest') => Some (PyStr cs, rest')
          | None => None
          end
      | 45%N :: rest =>
          match natural rest with
          | Some (n, rest') => Some (PyInt (- n), rest')
          | None => None
          end
      | 91%N :: rest =>
          match skip_ws rest with
          | 93%N :: rest' => Some (PyList [], rest')
          | _ =>
              match value fuel rest with
              | Some (v, rest') =>
                  match elements (value fuel) (S (length rest')) rest' with
                  | Some (vs, rest'') => Some (PyList (v :: vs), rest'')
                  | None => None
                  end
              | None => None
              end
          end
      | 123%N :: rest =>
          match skip_ws rest with
          | 125%N :: rest' => Some (PyDict ∅, rest')
          | _ =>
              match member (value fuel) rest with
              | Some (kv, rest') =>
                  match members (value fuel) (S (length rest')) rest' with
                  | Some (kvs, rest'') =>
                      Some (PyDict (dict_of (kv :: kvs)), rest'')
                  | None => None
                  end
              | None => None
              end
          end
      | rest =>
          match natural rest with
          | Some (n, rest') => Some (PyInt n, rest')
          | None => None
          end
      end
      end
  end.

Definition loads (body : list Byte.byte) : Outcome PyValue :=
  let s := Byte.to_N <$> body in
  match value (S (length s)) s with
  | Some (v, rest) =>
      match skip_ws rest with
      | [] => Return v
      | _ => Raise (JSONDecodeError "Extra data")
      end
  | None => Raise (JSONDecodeError "Expecting value")
  end.

End Json.

(** ** The grammar of JSON

    A recogniser for the JSON texts of RFC 8259, on the bytes of a body:
    optional white space, one value, optional white space.  Inside a
    string the bytes of a character beyond ASCII are taken as they come,
    so the recogniser accepts every JSON text; what it rejects is no
    JSON. *)

Module Rfc8259.

Definition is_hex (c : N) : bool :=
  (Json.is_digit c
   || ((65 <=? c) && (c <=? 70))
   || ((97 <=? c) && (c <=? 102)))%N.

(** The characters that may follow a backslash, [u] apart. *)
Definition is_escape (c : N) : bool :=
  ((c =? 34) || (c =? 92) || (c =? 47) || (c =? 98)
   || (c =? 102) || (c =? 110) || (c =? 114) || (c =? 116))%N.

(** The rest of a string after its opening quote. *)
Fixpoint chars (s : list N) : option (list N) :=
  match s with
  | [] => None
  | c :: s' =>
      if (c =? 34)%N then Some s'
      else if (c =? 92)%N then
        match s' with
        | e :: s'' =>
            if is_escape e then chars s''
            else if (e =? 117)%N then
              match s'' with
              | h1 :: h2 :: h3 :: h4 :: s3 =>
                  if is_hex h1 && is_hex h2 && is_hex h3 && is_hex h4
                  then chars s3
                  else None
              | _ => None
              end
            else None
        | [] => None
        end
      else if (c <? 32)%N then None
      else chars s'
  end.

Fixpoint skip_digits (s : list N) : list N :=
  match s with
  | c :: s' => if Json.is_digit c then skip_digits s' else s
  | [] => []
  end.

(** One digit or more. *)
Definition digits1 (s : list N) : option (list N) :=
  match s with
  | c :: s' => if Json.is_digit c then Some (skip_digits s') else None
  | [] => None
  end.

(** [int = zero / ( digit1-9 *DIGIT )]. *)
Definition int (s : list N) : option (list N) :=
  match s with
  | c :: s' =>
      if (c =? 48)%N then Some s'
      else if Json.is_digit c then Some (skip_digits s')
      else None
  | [] => None
  end.

(** [[ frac ]], with [frac = decimal-point 1*DIGIT]. *)
Definition frac (s : list N) : option (list N) :=
  match s with
  | c :: s' => if (c =? 46)%N then digits1 s' else Some s
  | [] => Some s
  end.

(** [[ exp ]], with [exp = e [ minus / plus ] 1*DIGIT]. *)
Definition exp (s : list N) : option (list N) :=
  match s with
  | c :: s' =>
      if ((c =? 101) || (c =? 69))%N then
        match s' with
        | sg :: s'' =>
            if ((sg =? 43) || (sg =? 45))%N then digits1 s'' else digits1 s'
        | [] => None
        end
      else Some s
  | [] => Some s
  end.

(** [number = [ minus ] int [ frac ] [ exp ]]. *)
Definition number (s : list N) : option (list N) :=
  let unsigned :=
    match s with
    | c :: s' => if (c =? 45)%N then s' else s
    | [] => s
    end in
  match int unsigned with
  | Some rest =>
      match frac rest with
      | Some rest' => exp rest'
      | None => None
      end
  | None => None
  end.

Section Containers.

Variable item : list N → option (list N).

(** The elements of an array after its first, up to the bracket. *)
Fixpoint elements (n : nat) (s : list N) : option (list N) :=
  match n with
  | O => None
  | S n =>
      match Json.skip_ws s with
      | c :: rest =>
          if (c =? 93)%N then Some rest
          else if (c =? 44)%N then
            match item rest with
            | Some rest' => elements n rest'
            | None => None
            end
          else None
      | [] => None
      end
  end.

(** One [name : value] member of an object. *)
Definition member (s : list N) : option (list N) :=
  match Json.skip_ws s with
  | c :: rest =>
      if (c =? 34)%N then
        match chars rest with
        | Some rest' =>
            match Json.skip_ws rest' with
            | c' :: rest'' => if (c' =? 58)%N then item rest'' else None
            | [] => None
            end
        | None => None
        end
      else None
  | [] => None
  end.

(** The members of an object after its first, up to the brace. *)
Fixpoint members (n : nat) (s : list N) : option (list N) :=
  match n with
  | O => None
  | S n =>
      match Json.skip_ws s with
      | c :: rest =>
          if (c =? 125)%N then Some rest
          else if (c =? 44)%N then
            match member rest with
            | Some rest' => members n rest'
            | None => None
            end
          else None
      | [] => None
      end
  end.

End Containers.

(** [value = false / null / true / object / array / number / string],
    with white space allowed before it. *)
Fixpoint value (fuel : nat) (s : list N) : option (list N) :=
  match fuel with
  | O => None
  | S fuel =>
      match Json.skip_ws s with
      | [] => None
      | c :: rest =>
          if (c =? 34)%N then chars rest
          else if (c =? 91)%N then
            match Json.skip_ws rest with
            | 93%N :: rest' => Some rest'
            | _ =>
                match value fuel rest with
                | Some rest' => elements (value fuel) (S (length rest')) rest'
                | None => None
                end
            end
          else if (c =? 123)%N then
            match Json.skip_ws rest with
            | 125%N :: rest' => Some rest'
            | _ =>
                match member (value fuel) rest with
                | Some rest' => members (value fuel) (S (length rest')) rest'
                | None => None
                end
            end
          else
            match Json.strip (py "null") (c :: rest) with
            | Some rest' => Some rest'
            | None =>
                match Json.strip (py "true") (c :: rest) with
                | Some rest' => Some rest'
                | None =>
                    match Json.strip (py "false") (c :: rest) with
                    | Some rest' => Some rest'
                    | None => number (c :: rest)
                    end
                end
            end
      end
  end.

(** [JSON-text = ws value ws]. *)
Definition valid (body : list Byte.byte) : bool :=
  let s := Byte.to_N <$> body in
  match value (S (length s)) s with
  | Some rest =>
      match Json.skip_ws rest with
      | [] => true
      | _ => false
      end
  | None => false
  end.

End Rfc8259.

(** An engine that knows the one template of the application and renders
    it to a fixed page; any other name is a missing template. *)
Definition one_template_engine (template_name : pystr)
    (context : gmap pystr PyValue) (request : HttpRequest)
    : Outcome (list Byte.byte) :=
  if decide (template_name = py "dashboard/index.html")
  then Return (list_byte_of_string "<!doctype html><title>dashboard</title>")
  else Raise (TemplateDoesNotExist "no such template").

(** An upstream that answers the [k]-th call with the [k]-th body of a
    script and refuses the connection once the script is exhausted. *)
Definition serving (bodies : list (list Byte.byte))
    : nat → GetCall → Outcome Response :=
  λ k _,
    match bodies !! k with
    | Some b => Return {| status_code := 200; content := b |}
    | None => Raise (ConnectionError "Connection refused")
    end.

(** A freshly started process. *)
Definition fresh_world (url : pystr)
    (up : nat → GetCall → Outcome Response) : World :=
  {| settings := {| API_URL := url |};
     upstream := up;
     store := ∅;
     trace := [] |}.

Definition plain_request : HttpRequest :=
  {| method := py "GET"; path := py "/"; GET := [];
     headers := ∅; body := [] |}.

Definition busy_request : HttpRequest :=
  {| method := py "POST"; path := py "/";
     GET := [(py "page", py "2")];
     headers := {[ py "Cookie" := py "sid=1" ]};
     body := list_byte_of_string "n=7" |}.

(** Bodies an upstream may send.  The first two are an object with two
    keys, [{"a": 1, "b": 2}], and a string of three characters, ["abc"]. *)
Definition object_body : list Byte.byte :=
  [Byte.x7b; Byte.x22; Byte.x61; Byte.x22; Byte.x3a; Byte.x20; Byte.x31;
   Byte.x2c; Byte.x20; Byte.x22; Byte.x62; Byte.x22; Byte.x3a; Byte.x20;
   Byte.x32; Byte.x7d].

Definition string_body : list Byte.byte :=
  [Byte.x22; Byte.x61; Byte.x62; Byte.x63; Byte.x22].

Definition five_body : list Byte.byte := list_byte_of_string "[1, 2, 3, 4, 5]".
Definition three_body : list Byte.byte := list_byte_of_string "[10, 20, 30]".
Definition seven_body : list Byte.byte :=
  list_byte_of_string "[null, true, false, 0, -1, [], {}]".
Definition empty_body : list Byte.byte := list_byte_of_string "[]".
Definition nan_body : list Byte.byte := list_byte_of_string "[NaN]".
Definition float_body : list Byte.byte :=
  list_byte_of_string " [0, -1.5e+3, 2E8, 10.25] ".

(** A string with escapes, ["a\n\u00e9"] on the wire. *)
Definition escaped_body : list Byte.byte :=
  [Byte.x22; Byte.x61; Byte.x5c; Byte.x6e; Byte.x5c; Byte.x75; Byte.x30;
   Byte.x30; Byte.x65; Byte.x39; Byte.x22].
Definition number_body : list Byte.byte := list_byte_of_string "42".
Definition text_body : list Byte.byte := list_byte_of_string "Service Unavailable".

Definition posts_url : pystr := py "https://api.example.org/posts".

(** The response that carries a body with status 200. *)
Definition ok (b : list Byte.byte) : Response :=
  {| status_code := 200; content := b |}.

(** Worlds in which the upstream sends these bodies, in this order. *)
Definition world_of (bodies : list (list Byte.byte)) : World :=
  fresh_world posts_url (serving bodies).

(** The page the reference engine renders. *)
Definition dashboard_page : list Byte.byte :=
  list_byte_of_string "<!doctype html><title>dashboard</title>".

(** An engine whose template directory is empty. *)
Definition empty_engine (template_name : pystr)
    (context : gmap pystr PyValue) (request : HttpRequest)
    : Outcome (list Byte.byte) :=
  Raise (TemplateDoesNotExist "dashboard/index.html").

(** An upstream that answers every call with the same response. *)
Definition answering (r : Response) : nat → GetCall → Outcome Response :=
  λ _ _, Return r.

(** ** The call an invocation makes and the answer it gets *)

(** The outbound call of an invocation started in [w]. *)
Definition api_call (w : World) : GetCall :=
  {| get_url := API_URL (settings w);
     get_params := None;
     get_kwargs := ∅ |}.

(** What the upstream answers to that call. *)
Definition reply (w : World) : Outcome Response :=
  upstream w (length (gets (trace w))) (api_call w).

Section View.

(** The JSON decoder behind [Response.json()], applied to the body. *)
Variable json_loads : list Byte.byte → Outcome PyValue.

(** Django's template engine, [loader.render_to_string]. *)
Variable render_to_string :
  pystr → gmap pystr PyValue → HttpRequest → Outcome (list Byte.byte).

(** [response.json()]. *)
Definition Response_json (response : Response) : M PyValue :=
  lift (json_loads (content response)).

(** [django.shortcuts.render]: render the template with the context and
    wrap the markup in an [HttpResponse], whose status defaults to 200. *)
Definition render (request : HttpRequest) (template_name : pystr)
    (context : gmap pystr PyValue) : M HttpResponse :=
  λ w,
    let c := {| render_request := request;
                render_template_name := template_name;
                render_context := context |} in
    (match render_to_string template_name context request with
     | Return html => Return {| http_status := 200; http_content := html |}
     | Raise e => Raise e
     end, log (EvRender c) w).

(** ** The view *)

(** [def index(request)] of [dashboard/views.py]. *)
Definition index (request : HttpRequest) : M HttpResponse :=
  url ← settings_API_URL;
  response ← requests_get url;
  posts ← Response_json response;
  total_responses ← lift (len posts);
  let data : gmap pystr PyValue :=
    {[ py "title" := PyStr (py "Landing Page' Dashboard");
       py "total_responses" := PyInt total_responses ]} in
  render request (py "dashboard/index.html") data.

(** The events one invocation appends to the trace. *)
Definition events_of (request : HttpRequest) (w : World) : list Event :=
  drop (length (trace w)) (trace (index request w).2).

(** The context [index] builds from a count. *)
Definition context_for (n : Z) : gmap pystr PyValue :=
  {[ py "title" := PyStr (py "Landing Page' Dashboard");
     py "total_responses" := PyInt n ]}.

(** The one call to [render] an invocation can make. *)
Definition render_call (request : HttpRequest) (n : Z) : RenderCall :=
  {| render_request := request;
     render_template_name := py "dashboard/index.html";
     render_context := context_for n |}.

(** [rendered request w n]: the invocation fetched, called [render] once
    with the count [n] and returned what [render] returned, a page with
    status 200 whenever the template engine produced one. *)
Definition rendered (request : HttpRequest) (w : World) (n : Z) : Prop :=
  events_of request w = [EvGet (api_call w); EvRender (render_call request n)]
  ∧ (index request w).1 =
      match render_to_string (py "dashboard/index.html") (context_for n) request with
      | Return html => Return {| http_status := 200; http_content := html |}
      | Raise e => Raise e
      end.

(** [failed request w e]: the invocation fetched, raised [e] and never
    reached [render]. *)
Definition failed (request : HttpRequest) (w : World) (e : PyExc) : Prop :=
  (index request w).1 = Raise e
  ∧ events_of request w = [EvGet (api_call w)].

(** The process serving requests one after the other: each invocation
    starts in the world the previous one left. *)
Fixpoint handle_all (requests : list HttpRequest) (w : World) : World :=
  match requests with
  | [] => w
  | request :: rest => handle_all rest (index request w).2
  end.

(** *** How an invocation unfolds *)

Lemma index_unfold request w :
  index request w =
    match reply w with
    | Raise e => (Raise e, log (EvGet (api_call w)) w)
    | Return r =>
        match json_loads (content r) with
        | Raise e => (Raise e, log (EvGet (api_call w)) w)
        | Return posts =>
            match len posts with
            | Raise e => (Raise e, log (EvGet (api_call w)) w)
            | Return n =>
                render request (py "dashboard/index.html") (context_for n)
                  (log (EvGet (api_call w)) w)
            end
        end
    end.
Proof.
  unfold index, reply, mbind, M_bind, settings_API_URL, requests_get,
    Response_json, lift; cbn.
  fold (api_call w).
  destruct (upstream w _ _) as [r|e]; [|done].
  destruct (json_loads _) as [posts|e]; [|done].
  by destruct (len posts).
Qed.

Lemma drop_trace_app (t new : list Event) : drop (length t) (t ++ new) = new.
Proof. by rewrite drop_app_length. Qed.

Lemma index_failed_reply request w e :
  reply w = Raise e → failed request w e.
Proof.
  intros Hr. unfold failed, events_of. rewrite index_unfold, Hr; cbn.
  by rewrite drop_trace_app.
Qed.

Lemma index_failed_json request w r e :
  reply w = Return r → json_loads (content r) = Raise e → failed request w e.
Proof.
  intros Hr Hj. unfold failed, events_of. rewrite index_unfold, Hr, Hj; cbn.
  by rewrite drop_trace_app.
Qed.

Lemma index_failed_len request w r posts e :
  reply w = Return r → json_loads (content r) = Return posts →
  len posts = Raise e → failed request w e.
Proof.
  intros Hr Hj Hl. unfold failed, events_of.
  rewrite index_unfold, Hr, Hj, Hl; cbn.
  by rewrite drop_trace_app.
Qed.

Lemma index_rendered request w r posts n :
  reply w = Return r → json_loads (content r) = Return posts →
  len posts = Return n → rendered request w n.
Proof.
  intros Hr Hj Hl. unfold rendered, events_of.
  rewrite index_unfold, Hr, Hj, Hl; cbn.
  by rewrite <- app_assoc, drop_trace_app.
Qed.

(** Every invocation either fails after its fetch or renders a count. *)
Lemma index_cases request w :
  (∃ e, failed request w e) ∨ (∃ n, rendered request w n).
Proof.
  destruct (reply w) as [r|e] eqn:Hr;
    [|left; eauto using index_failed_reply].
  destruct (json_loads (content r)) as [posts|e] eqn:Hj;
    [|left; eauto using index_failed_json].
  destruct (len posts) as [n|e] eqn:Hl;
    [right|left]; eauto using index_failed_len, index_rendered.
Qed.

(** An invocation only appends to the trace. *)
Lemma index_trace request w :
  trace (index request w).2 = trace w ++ events_of request w.
Proof.
  unfold events_of. rewrite index_unfold.
  destruct (reply w) as [r|e]; cbn;
    [|by rewrite drop_trace_app].
  destruct (json_loads _) as [posts|e]; cbn;
    [|by rewrite drop_trace_app].
  destruct (len posts); cbn; [|by rewrite drop_trace_app].
  by rewrite <- app_assoc, drop_trace_app.
Qed.

(** An invocation leaves the rest of the world alone. *)
Lemma index_frame request w :
  settings (index request w).2 = settings w
  ∧ store (index request w).2 = store w
  ∧ upstream (index request w).2 = upstream w.
Proof.
  rewrite index_unfold.
  destruct (reply w) as [r|e]; cbn; [|done].
  destruct (json_loads _) as [posts|e]; cbn; [|done].
  by destruct (len posts).
Qed.

(** *** The context *)

Lemma title_ne_total : py "title" ≠ py "total_responses".
Proof. discriminate. Qed.

Lemma context_for_title n :
  context_for n !! py "title" = Some (PyStr (py "Landing Page' Dashboard")).
Proof. unfold context_for. apply lookup_insert_eq. Qed.

Lemma context_for_total n :
  context_for n !! py "total_responses" = Some (PyInt n).
Proof.
  unfold context_for.
  rewrite lookup_insert_ne by apply title_ne_total.
  apply lookup_singleton_eq.
Qed.

Lemma context_for_dom n :
  dom (context_for n) = {[ py "title"; py "total_responses" ]}.
Proof. unfold context_for. by rewrite dom_insert_L, dom_singleton_L. Qed.

Lemma context_for_lookup n k v :
  context_for n !! k = Some v →
  (k = py "title" ∧ v = PyStr (py "Landing Page' Dashboard"))
  ∨ (k = py "total_responses" ∧ v = PyInt n).
Proof.
  unfold context_for. intros H.
  apply lookup_insert_Some in H as [[<- <-]|[_ H]]; [by left|].
  apply lookup_singleton_Some in H as [<- <-]. by right.
Qed.

Lemma renders_rendered request w n :
  rendered request w n →
  renders (events_of request w) = [render_call request n]
  ∧ gets (events_of request w) = [api_call w].
Proof. intros [-> _]. done. Qed.

Lemma renders_failed request w e :
  failed request w e →
  renders (events_of request w) = []
  ∧ gets (events_of request w) = [api_call w].
Proof. intros [_ ->]. done. Qed.

(** The events of an invocation, read off the answer it gets. *)
Lemma events_of_unfold request w :
  events_of request w =
    EvGet (api_call w) ::
    match reply w with
    | Return r =>
        match json_loads (content r) with
        | Return posts =>
            match len posts with
            | Return n => [EvRender (render_call request n)]
            | Raise _ => []
            end
        | Raise _ => []
        end
    | Raise _ => []
    end.
Proof.
  destruct (reply w) as [r|e] eqn:Hr;
    [|by destruct (index_failed_reply request w e Hr)].
  destruct (json_loads (content r)) as [posts|e] eqn:Hj;
    [|by destruct (index_failed_json request w r e Hr Hj)].
  destruct (len posts) as [n|e] eqn:Hl;
    [by destruct (index_rendered request w r posts n Hr Hj Hl)
    |by destruct (index_failed_len request w r posts e Hr Hj Hl)].
Qed.

(** The outcome and the events of an invocation depend on the world only
    through the configured URL and the answer the upstream gives. *)
Lemma index_depends_on_reply request w w' :
  API_URL (settings w) = API_URL (settings w') →
  reply w = reply w' →
  (index request w).1 = (index request w').1
  ∧ events_of request w = events_of request w'.
Proof.
  intros Hu Hr.
  assert (api_call w = api_call w') as Hc by (unfold api_call; by rewrite Hu).
  split.
  - rewrite !index_unfold, <- Hr.
    destruct (reply w) as [r|e]; cbn; [|done].
    destruct (json_loads _) as [posts|e]; cbn; [|done].
    by destruct (len posts).
  - by rewrite !events_of_unfold, Hc, Hr.
Qed.

(** ** The properties of the view *)

(** C1. When the upstream answers with a body that decodes to a JSON array
    of length [N], the invocation calls the renderer once, with a context
    that binds [total_responses] to the integer [N], which is not
    negative.  This holds for every [N], so for 0, for 1 and beyond. *)
Theorem index_total_responses request w r l (N : nat) :
  reply w = Return r →
  json_loads (content r) = Return (PyList l) →
  length l = N →
  ∃ rc,
    renders (events_of request w) = [rc]
    ∧ render_context rc !! py "total_responses" = Some (PyInt (Z.of_nat N))
    ∧ (0 ≤ Z.of_nat N)%Z.
Proof.
  intros Hr Hj <-.
  destruct (renders_rendered request w (Z.of_nat (length l))) as [Hc _];
    [by eapply index_rendered|].
  exists (render_call request (Z.of_nat (length l))).
  split_and!; [done|apply context_for_total|lia].
Qed.

(** C2. Whatever the request and whatever the upstream answers, a context
    the invocation hands to the renderer binds [title] to the literal
    [Landing Page' Dashboard], apostrophe included. *)
Theorem index_title request w rc :
  rc ∈ renders (events_of request w) →
  render_context rc !! py "title" = Some (PyStr (py "Landing Page' Dashboard")).
Proof.
  destruct (index_cases request w) as [[e Hf]|[n Hn]].
  - apply renders_failed in Hf as [-> _]. by intros ?%elem_of_nil.
  - apply renders_rendered in Hn as [-> _].
    intros ->%list_elem_of_singleton. apply context_for_title.
Qed.

(** C3. An invocation that returns a response has called the renderer
    exactly once, with the template [dashboard/index.html] and a context
    whose keys are exactly [title] and [total_responses]; [title] is bound
    to a string and [total_responses] to an integer, the length of the
    decoded value.  Every binding is a string or an integer built from
    that length alone: the decoded value is not among them. *)
Theorem index_render_call request w resp :
  (index request w).1 = Return resp →
  ∃ r posts n ctx,
    reply w = Return r
    ∧ json_loads (content r) = Return posts
    ∧ len posts = Return n
    ∧ renders (events_of request w) =
        [ {| render_request := request;
             render_template_name := py "dashboard/index.html";
             render_context := ctx |} ]
    ∧ dom ctx = {[ py "title"; py "total_responses" ]}
    ∧ ctx !! py "title" = Some (PyStr (py "Landing Page' Dashboard"))
    ∧ ctx !! py "total_responses" = Some (PyInt n)
    ∧ ∀ k v, ctx !! k = Some v →
        (∀ l, v ≠ PyList l) ∧ (∀ d, v ≠ PyDict d).
Proof.
  intros Hret.
  destruct (reply w) as [r|e] eqn:Hr;
    [|by destruct (index_failed_reply request w e Hr) as [? _]; congruence].
  destruct (json_loads (content r)) as [posts|e] eqn:Hj;
    [|by destruct (index_failed_json request w r e Hr Hj) as [? _]; congruence].
  destruct (len posts) as [n|e] eqn:Hl;
    [|by destruct (index_failed_len request w r posts e Hr Hj Hl) as [? _];
         congruence].
  exists r, posts, n, (context_for n).
  destruct (renders_rendered request w n) as [Hc _];
    [by eapply index_rendered|].
  split_and!; [done|done|done|exact Hc|..].
  - apply context_for_dom.
  - apply context_for_title.
  - apply context_for_total.
  - by intros k v [[_ ->]|[_ ->]]%context_for_lookup.
Qed.

(** C4. When the outbound GET raises, the invocation raises the same
    error: it returns no response, makes no call to the renderer, and the
    one GET that failed is the only one it makes. *)
Theorem index_transport_error request w e :
  reply w = Raise e →
  (index request w).1 = Raise e
  ∧ events_of request w = [EvGet (api_call w)]
  ∧ renders (events_of request w) = []
  ∧ gets (events_of request w) = [api_call w].
Proof.
  intros Hr. pose proof (index_failed_reply request w e Hr) as Hf.
  destruct (renders_failed request w e Hf) as [? ?].
  by destruct Hf.
Qed.


(** C6, as the code has it.  When the body decodes to a JSON value that
    has no length, which is a number, a boolean or null, [len] raises a
    [TypeError]; the invocation raises it too and makes no call to the
    renderer. *)
Theorem index_unsized_value request w r posts :
  reply w = Return r →
  json_loads (content r) = Return posts →
  (posts = PyNone ∨ (∃ b, posts = PyBool b)
   ∨ (∃ n, posts = PyInt n) ∨ (∃ x, posts = PyFloat x)) →
  ∃ msg,
    (index request w).1 = Raise (TypeError msg)
    ∧ events_of request w = [EvGet (api_call w)]
    ∧ renders (events_of request w) = [].
Proof.
  intros Hr Hj Hp.
  assert (∃ msg, len posts = Raise (TypeError msg)) as [msg Hl].
  { destruct Hp as [->|[[b ->]|[[n ->]|[x ->]]]]; cbn; eauto. }
  exists msg.
  pose proof (index_failed_len request w r posts _ Hr Hj Hl) as Hf.
  destruct (renders_failed request w _ Hf) as [? ?].
  by destruct Hf.
Qed.

(** C7. Two invocations in a row, the first answered with an array of
    length [N1] and the second with an array of length [N2]: the first
    hands the renderer the count [N1], the second the count [N2].  The
    second behaves exactly as it would in any other world with the same
    configured URL and the same answer, whatever happened there before. *)
Theorem index_stateless request1 request2 w r1 r2 l1 l2 :
  reply w = Return r1 →
  json_loads (content r1) = Return (PyList l1) →
  reply (index request1 w).2 = Return r2 →
  json_loads (content r2) = Return (PyList l2) →
  (∃ rc1,
     renders (events_of request1 w) = [rc1]
     ∧ render_context rc1 !! py "total_responses"
       = Some (PyInt (Z.of_nat (length l1))))
  ∧ (∃ rc2,
       renders (events_of request2 (index request1 w).2) = [rc2]
       ∧ render_context rc2 !! py "total_responses"
         = Some (PyInt (Z.of_nat (length l2))))
  ∧ (∀ w',
       API_URL (settings w') = API_URL (settings w) →
       reply w' = Return r2 →
       (index request2 w').1 = (index request2 (index request1 w).2).1
       ∧ events_of request2 w' = events_of request2 (index request1 w).2).
Proof.
  intros Hr1 Hj1 Hr2 Hj2. split_and!.
  - exists (render_call request1 (Z.of_nat (length l1))). split.
    + by eapply renders_rendered, index_rendered.
    + apply context_for_total.
  - exists (render_call request2 (Z.of_nat (length l2))). split.
    + by eapply renders_rendered, index_rendered.
    + apply context_for_total.
  - intros w' Hu Hr'. apply index_depends_on_reply.
    + destruct (index_frame request1 w) as [-> _]. done.
    + by rewrite Hr', Hr2.
Qed.

(** C8. The invocation reads nothing from the inbound request: for any two
    requests run in the same world, the outbound calls are the same single
    GET to the configured URL and the contexts handed to the renderer are
    the same. *)
Theorem index_ignores_request request1 request2 w :
  gets (events_of request1 w) = gets (events_of request2 w)
  ∧ get_url <$> gets (events_of request1 w) = [API_URL (settings w)]
  ∧ render_context <$> renders (events_of request1 w)
    = render_context <$> renders (events_of request2 w).
Proof.
  rewrite !events_of_unfold.
  destruct (reply w) as [r|e]; cbn; [|done].
  destruct (json_loads _) as [posts|e]; cbn; [|done].
  by destruct (len posts).
Qed.

(** C9. Every invocation makes exactly one outbound GET.  Its URL is the
    value [API_URL] has in the settings at that moment, so a new value set
    between two invocations is the one the next invocation fetches; the
    call carries no query parameters and no other argument (no body, no
    headers).  The settings and the store are as they were. *)
Theorem index_one_get request w :
  gets (events_of request w) =
    [ {| get_url := API_URL (settings w);
         get_params := None;
         get_kwargs := ∅ |} ]
  ∧ settings (index request w).2 = settings w
  ∧ store (index request w).2 = store w
  ∧ ∀ request' url',
      gets (events_of request' (set_API_URL url' (index request w).2)) =
        [ {| get_url := url'; get_params := None; get_kwargs := ∅ |} ].
Proof.
  assert (∀ rq v, gets (events_of rq v) = [api_call v]) as Hg.
  { intros rq v. rewrite events_of_unfold.
    destruct (reply v) as [r|e]; cbn; [|done].
    destruct (json_loads _) as [posts|e]; cbn; [|done].
    by destruct (len posts). }
  destruct (index_frame request w) as (Hs & Hst & _).
  split_and!; [apply Hg|done|done|].
  intros request' url'. apply Hg.
Qed.

(** C10. [len] is applied to whatever the decoder yields.  An array is
    rendered with its number of elements, an object with its number of
    keys and a string with its number of characters, each with status 200
    once the template engine has produced the page; null, a boolean and a
    number are the values on which [len] raises, and there the invocation
    fails with that [TypeError]. *)
Theorem index_sized_values request w r posts :
  reply w = Return r →
  json_loads (content r) = Return posts →
  match posts with
  | PyList l => rendered request w (Z.of_nat (length l))
  | PyDict d => rendered request w (Z.of_nat (size d))
  | PyStr s => rendered request w (Z.of_nat (length s))
  | PyNone | PyBool _ | PyInt _ | PyFloat _ =>
      ∃ msg, failed request w (TypeError msg)
  end.
Proof.
  intros Hr Hj.
  destruct posts; try (eexists; by eapply index_failed_len);
    by eapply index_rendered.
Qed.

(** ** Further properties of the view *)

Lemma len_nonneg v n : len v = Return n → (0 ≤ n)%Z.
Proof. destruct v; cbn; intros [= <-]; lia. Qed.

Lemma len_raises v e : len v = Raise e → ∃ msg, e = TypeError msg.
Proof. destruct v; cbn; intros [= <-]; eauto. Qed.

Lemma gets_events_of request w : gets (events_of request w) = [api_call w].
Proof.
  rewrite events_of_unfold.
  destruct (reply w) as [r|e]; cbn; [|done].
  destruct (json_loads _) as [posts|e]; cbn; [|done].
  by destruct (len posts).
Qed.

Lemma api_call_index request w : api_call (index request w).2 = api_call w.
Proof. unfold api_call. by destruct (index_frame request w) as [-> _]. Qed.

Lemma upstream_index request w : upstream (index request w).2 = upstream w.
Proof. by destruct (index_frame request w) as (_ & _ & ->). Qed.

Lemma gets_index request w :
  gets (trace (index request w).2) = gets (trace w) ++ [api_call w].
Proof.
  rewrite index_trace. unfold gets at 1.
  rewrite omap_app. fold (gets (trace w)) (gets (events_of request w)).
  by rewrite gets_events_of.
Qed.

Lemma renders_index request w :
  renders (trace (index request w).2)
  = renders (trace w) ++ renders (events_of request w).
Proof. rewrite index_trace. unfold renders. by rewrite omap_app. Qed.

(** When the template engine raises, after the fetch, the decoding and
    the count all went well, the invocation raises the same error: the
    renderer was called once, with the count, and no response is made up
    in its place. *)
Theorem index_template_failure request w r posts n e :
  reply w = Return r →
  json_loads (content r) = Return posts →
  len posts = Return n →
  render_to_string (py "dashboard/index.html")
    {[ py "title" := PyStr (py "Landing Page' Dashboard");
       py "total_responses" := PyInt n ]} request = Raise e →
  (index request w).1 = Raise e
  ∧ events_of request w =
      [ EvGet (api_call w);
        EvRender {| render_request := request;
                    render_template_name := py "dashboard/index.html";
                    render_context :=
                      {[ py "title" := PyStr (py "Landing Page' Dashboard");
                         py "total_responses" := PyInt n ]} |} ].
Proof.
  intros Hr Hj Hl He.
  destruct (index_rendered request w r posts n Hr Hj Hl) as [Hev Hout].
  split; [|exact Hev].
  rewrite Hout. unfold context_for. by rewrite He.
Qed.

(** An invocation returns a response exactly when all four steps go well,
    and then the response has status 200 and carries the page the
    template engine produced for the title and the count: the view never
    answers with another status or another body. *)
Theorem index_response request w resp :
  (index request w).1 = Return resp ↔
  ∃ r posts n html,
    reply w = Return r
    ∧ json_loads (content r) = Return posts
    ∧ len posts = Return n
    ∧ render_to_string (py "dashboard/index.html")
        {[ py "title" := PyStr (py "Landing Page' Dashboard");
           py "total_responses" := PyInt n ]} request = Return html
    ∧ resp = {| http_status := 200; http_content := html |}.
Proof.
  split.
  - intros Hret.
    destruct (reply w) as [r|e] eqn:Hr;
      [|destruct (index_failed_reply request w e Hr) as [? _]; congruence].
    destruct (json_loads (content r)) as [posts|e] eqn:Hj;
      [|destruct (index_failed_json request w r e Hr Hj) as [? _]; congruence].
    destruct (len posts) as [n|e] eqn:Hl;
      [|destruct (index_failed_len request w r posts e Hr Hj Hl) as [? _];
        congruence].
    destruct (index_rendered request w r posts n Hr Hj Hl) as [_ Hout].
    rewrite Hout in Hret. unfold context_for in Hret.
    destruct (render_to_string _ _ _) as [html|e] eqn:Ht; [|done].
    exists r, posts, n, html. by injection Hret as <-.
  - intros (r & posts & n & html & Hr & Hj & Hl & Ht & ->).
    destruct (index_rendered request w r posts n Hr Hj Hl) as [_ Hout].
    rewrite Hout. unfold context_for. by rewrite Ht.
Qed.

(** Every error an invocation raises comes from one of its four steps, the
    first that fails: the transport, the decoder, [len] (always a
    [TypeError]) or the template engine.  The view raises nothing of its
    own. *)
Theorem index_failure_origin request w e :
  (index request w).1 = Raise e →
  reply w = Raise e
  ∨ (∃ r, reply w = Return r ∧ json_loads (content r) = Raise e)
  ∨ (∃ r posts msg,
       reply w = Return r
       ∧ json_loads (content r) = Return posts
       ∧ len posts = Raise e
       ∧ e = TypeError msg)
  ∨ (∃ r posts n,
       reply w = Return r
       ∧ json_loads (content r) = Return posts
       ∧ len posts = Return n
       ∧ render_to_string (py "dashboard/index.html")
           {[ py "title" := PyStr (py "Landing Page' Dashboard");
              py "total_responses" := PyInt n ]} request = Raise e).
Proof.
  intros Hraise.
  destruct (reply w) as [r|e'] eqn:Hr.
  2: { destruct (index_failed_reply request w e' Hr) as [? _].
       left. congruence. }
  destruct (json_loads (content r)) as [posts|e'] eqn:Hj.
  2: { destruct (index_failed_json request w r e' Hr Hj) as [? _].
       right; left. exists r. split; [done|congruence]. }
  destruct (len posts) as [n|e'] eqn:Hl.
  2: { destruct (index_failed_len request w r posts e' Hr Hj Hl) as [? _].
       assert (e' = e) as -> by congruence.
       destruct (len_raises posts e Hl) as [msg ->].
       right; right; left. by exists r, posts, msg. }
  destruct (index_rendered request w r posts n Hr Hj Hl) as [_ Hout].
  rewrite Hout in Hraise. unfold context_for in Hraise.
  destruct (render_to_string _ _ _) as [html|e'] eqn:Ht; [done|].
  right; right; right. exists r, posts, n.
  split_and!; [done|done|done|congruence].
Qed.

(** The status code of the upstream response is never looked at: two
    answers with the same body, whatever their status codes, give the same
    outcome and the same calls. *)
Theorem index_ignores_status_code request w w' r r' :
  API_URL (settings w) = API_URL (settings w') →
  reply w = Return r →
  reply w' = Return r' →
  content r = content r' →
  (index request w).1 = (index request w').1
  ∧ events_of request w = events_of request w'.
Proof.
  intros Hu Hr Hr' Hc.
  assert (api_call w = api_call w') as Ha by (unfold api_call; by rewrite Hu).
  split.
  - rewrite !index_unfold, Hr, Hr', Hc.
    destruct (json_loads _) as [posts|e]; cbn; [|done].
    by destruct (len posts).
  - by rewrite !events_of_unfold, Hr, Hr', Hc, Ha.
Qed.

(** The upstream data reaches the page through its length only: two
    decoded values of the same length, whatever their elements and whether
    they are arrays, objects or strings, give the same outcome and the
    same calls. *)
Theorem index_depends_on_count request w w' r r' posts posts' :
  API_URL (settings w) = API_URL (settings w') →
  reply w = Return r →
  json_loads (content r) = Return posts →
  reply w' = Return r' →
  json_loads (content r') = Return posts' →
  len posts = len posts' →
  (index request w).1 = (index request w').1
  ∧ events_of request w = events_of request w'.
Proof.
  intros Hu Hr Hj Hr' Hj' Hl.
  assert (api_call w = api_call w') as Ha by (unfold api_call; by rewrite Hu).
  split.
  - rewrite !index_unfold, Hr, Hr', Hj, Hj', Hl.
    by destruct (len posts').
  - by rewrite !events_of_unfold, Hr, Hr', Hj, Hj', Hl, Ha.
Qed.

(** Whatever the upstream sends, a context handed to the renderer binds
    [total_responses] to an integer that is not negative. *)
Theorem index_count_nonneg request w rc :
  rc ∈ renders (events_of request w) →
  ∃ n, render_context rc !! py "total_responses" = Some (PyInt n) ∧ (0 ≤ n)%Z.
Proof.
  rewrite events_of_unfold.
  destruct (reply w) as [r|e]; cbn; [|by intros ?%elem_of_nil].
  destruct (json_loads _) as [posts|e]; cbn; [|by intros ?%elem_of_nil].
  destruct (len posts) as [n|e] eqn:Hl; cbn; [|by intros ?%elem_of_nil].
  intros ->%list_elem_of_singleton. exists n. split.
  - apply context_for_total.
  - by eapply len_nonneg.
Qed.

(** Serving requests one after the other makes one outbound GET per
    request, each to the configured URL and with no other argument, and at
    most one call to the renderer per request; the settings and the store
    come out as they went in. *)
Theorem handle_all_gets requests w :
  gets (trace (handle_all requests w))
  = gets (trace w)
    ++ replicate (length requests)
         {| get_url := API_URL (settings w);
            get_params := None;
            get_kwargs := ∅ |}
  ∧ length (renders (trace (handle_all requests w)))
    ≤ length (renders (trace w)) + length requests
  ∧ settings (handle_all requests w) = settings w
  ∧ store (handle_all requests w) = store w.
Proof.
  fold (api_call w).
  revert w. induction requests as [|request rest IH]; intros w; cbn.
  - rewrite app_nil_r. split_and!; [done|lia|done|done].
  - destruct (IH (index request w).2) as (Hg & Hn & Hs & Hst).
    destruct (index_frame request w) as (Hs' & Hst' & _).
    split_and!.
    + rewrite Hg, gets_index, api_call_index, <- app_assoc. done.
    + rewrite renders_index, length_app in Hn.
      assert (length (renders (events_of request w)) ≤ 1); [|lia].
      rewrite events_of_unfold.
      destruct (reply w) as [r|e]; cbn; [|lia].
      destruct (json_loads _) as [posts|e]; cbn; [|lia].
      destruct (len posts); cbn; lia.
    + by rewrite Hs.
    + by rewrite Hst.
Qed.

(** Serving requests one after the other, with the upstream answering the
    [k]-th of them with an array: the renderer is called once per request,
    in order, the [k]-th time with the [k]-th request and the length of
    the [k]-th array.  No count is carried over, skipped or repeated. *)
Theorem handle_all_counts requests (arrays : list (list PyValue)) w :
  length arrays = length requests →
  (∀ k l, arrays !! k = Some l →
     ∃ r, upstream w (length (gets (trace w)) + k) (api_call w) = Return r
          ∧ json_loads (content r) = Return (PyList l)) →
  renders (trace (handle_all requests w))
  = renders (trace w)
    ++ zip_with (λ request l, render_call request (Z.of_nat (length l)))
         requests arrays.
Proof.
  revert arrays w.
  induction requests as [|request rest IH]; intros arrays w Hlen Hup; cbn.
  - by rewrite app_nil_r.
  - destruct arrays as [|l arrays]; [done|].
    destruct (Hup 0 l eq_refl) as (r & Hr & Hj).
    rewrite Nat.add_0_r in Hr. fold (reply w) in Hr.
    rewrite (IH arrays).
    + rewrite renders_index.
      destruct (renders_rendered request w (Z.of_nat (length l))) as [-> _];
        [by eapply index_rendered|].
      by rewrite <- app_assoc.
    + cbn in Hlen. lia.
    + intros k l' Hk.
      destruct (Hup (S k) l' Hk) as (r' & Hr' & Hj').
      exists r'. split; [|done].
      rewrite upstream_index, api_call_index, gets_index, length_app; cbn.
      by rewrite <- Hr', <- Nat.add_assoc.
Qed.

End View.

(** ** The view at work *)

Example loads_five :
  Json.loads five_body = Return (PyList (PyInt <$> [1; 2; 3; 4; 5]%Z)).
Proof. reflexivity. Qed.

Example loads_object :
  Json.loads object_body
  = Return (PyDict {[ py "a" := PyInt 1; py "b" := PyInt 2 ]}).
Proof. vm_compute. reflexivity. Qed.

Example loads_string : Json.loads string_body = Return (PyStr (py "abc")).
Proof. reflexivity. Qed.

Example loads_text : raised (Json.loads text_body).
Proof. eexists. reflexivity. Qed.

Example valid_bodies :
  Rfc8259.valid <$>
    [five_body; three_body; seven_body; empty_body; number_body;
     object_body; string_body; float_body; escaped_body]
  = [true; true; true; true; true; true; true; true; true].
Proof. reflexivity. Qed.

Example invalid_bodies :
  Rfc8259.valid <$>
    [text_body; nan_body; []; list_byte_of_string "[1,]";
     list_byte_of_string "01"; list_byte_of_string "-Infinity";
     list_byte_of_string "[1 2]"; list_byte_of_string "{1:2}"]
  = [false; false; false; false; false; false; false; false].
Proof. reflexivity. Qed.

Example loads_nan :
  Json.loads nan_body = Return (PyList [PyFloat S754_nan]).
Proof. reflexivity. Qed.

Example index_nan :
  (index Json.loads one_template_engine plain_request (world_of [nan_body])).1
  = Return {| http_status := 200; http_content := dashboard_page |}
  ∧ renders (events_of Json.loads one_template_engine plain_request
               (world_of [nan_body]))
    = [render_call plain_request 1].
Proof. split; reflexivity. Qed.

Example index_five :
  (index Json.loads one_template_engine plain_request (world_of [five_body])).1
  = Return {| http_status := 200;
              http_content :=
                list_byte_of_string "<!doctype html><title>dashboard</title>" |}
  ∧ trace (index Json.loads one_template_engine plain_request
             (world_of [five_body])).2
    = [ EvGet {| get_url := posts_url; get_params := None; get_kwargs := ∅ |};
        EvRender {| render_request := plain_request;
                    render_template_name := py "dashboard/index.html";
                    render_context :=
                      {[ py "title" := PyStr (py "Landing Page' Dashboard");
                         py "total_responses" := PyInt 5 ]} |} ].
Proof. split; reflexivity. Qed.

(** ** The properties on concrete runs *)

Abbreviation index_ref := (index Json.loads one_template_engine).
Abbreviation events_ref := (events_of Json.loads one_template_engine).

Lemma index_total_responses_witness :
  (∃ rc,
     renders (events_ref plain_request (world_of [empty_body])) = [rc]
     ∧ render_context rc !! py "total_responses" = Some (PyInt (Z.of_nat 0))
     ∧ (0 ≤ Z.of_nat 0)%Z)
  ∧ (∃ rc,
       renders (events_ref plain_request (world_of [five_body])) = [rc]
       ∧ render_context rc !! py "total_responses" = Some (PyInt (Z.of_nat 5))
       ∧ (0 ≤ Z.of_nat 5)%Z).
Proof.
  split.
  - apply (index_total_responses Json.loads one_template_engine plain_request
             (world_of [empty_body]) (ok empty_body) [] 0); reflexivity.
  - apply (index_total_responses Json.loads one_template_engine plain_request
             (world_of [five_body]) (ok five_body)
             (PyInt <$> [1; 2; 3; 4; 5]%Z) 5); reflexivity.
Defined.

Lemma index_title_witness :
  render_call busy_request 3
    ∈ renders (events_ref busy_request (world_of [three_body]))
  ∧ render_context (render_call busy_request 3) !! py "title"
    = Some (PyStr (py "Landing Page' Dashboard")).
Proof.
  assert (render_call busy_request 3
            ∈ renders (events_ref busy_request (world_of [three_body]))) as H
    by (vm_compute; left).
  split; [exact H|].
  exact (index_title Json.loads one_template_engine busy_request
           (world_of [three_body]) (render_call busy_request 3) H).
Defined.

Lemma index_render_call_witness :
  ∃ r posts n ctx,
    reply (world_of [five_body]) = Return r
    ∧ Json.loads (content r) = Return posts
    ∧ len posts = Return n
    ∧ renders (events_ref plain_request (world_of [five_body])) =
        [ {| render_request := plain_request;
             render_template_name := py "dashboard/index.html";
             render_context := ctx |} ]
    ∧ dom ctx = {[ py "title"; py "total_responses" ]}
    ∧ ctx !! py "title" = Some (PyStr (py "Landing Page' Dashboard"))
    ∧ ctx !! py "total_responses" = Some (PyInt n)
    ∧ ∀ k v, ctx !! k = Some v →
        (∀ l, v ≠ PyList l) ∧ (∀ d, v ≠ PyDict d).
Proof.
  apply (index_render_call Json.loads one_template_engine plain_request
           (world_of [five_body])
           {| http_status := 200;
              http_content :=
                list_byte_of_string "<!doctype html><title>dashboard</title>" |}).
  reflexivity.
Defined.

Lemma index_transport_error_witness :
  (index_ref plain_request (world_of [])).1
  = Raise (ConnectionError "Connection refused")
  ∧ events_ref plain_request (world_of [])
    = [EvGet (api_call (world_of []))]
  ∧ renders (events_ref plain_request (world_of [])) = []
  ∧ gets (events_ref plain_request (world_of [])) = [api_call (world_of [])].
Proof.
  apply (index_transport_error Json.loads one_template_engine plain_request
           (world_of []) (ConnectionError "Connection refused")).
  reflexivity.
Defined.



(** C6 as the specification words it fails: a JSON object is not an array,
    yet [len] counts its keys and the page is rendered. *)
Lemma index_object_counterexample :
  ¬ (∀ json_loads render_to_string request w r posts,
       reply w = Return r →
       json_loads (content r) = Return posts →
       (∀ l, posts ≠ PyList l) →
       raised (index json_loads render_to_string request w).1).
Proof.
  intros H.
  destruct (H Json.loads one_template_engine plain_request
              (world_of [object_body]) (ok object_body)
              (PyDict {[ py "a" := PyInt 1; py "b" := PyInt 2 ]}))
    as [e He].
  - reflexivity.
  - vm_compute. reflexivity.
  - discriminate.
  - vm_compute in He. discriminate He.
Qed.

Lemma index_unsized_value_witness :
  ∃ msg,
    (index_ref plain_request (world_of [number_body])).1 = Raise (TypeError msg)
    ∧ events_ref plain_request (world_of [number_body])
      = [EvGet (api_call (world_of [number_body]))]
    ∧ renders (events_ref plain_request (world_of [number_body])) = [].
Proof.
  apply (index_unsized_value Json.loads one_template_engine plain_request
           (world_of [number_body]) (ok number_body) (PyInt 42));
    [reflexivity|reflexivity|].
  right. right. left. exists 42%Z. reflexivity.
Defined.

Lemma index_stateless_witness :
  (∃ rc1,
     renders (events_ref plain_request (world_of [three_body; seven_body]))
     = [rc1]
     ∧ render_context rc1 !! py "total_responses" = Some (PyInt 3))
  ∧ (∃ rc2,
       renders (events_ref busy_request
                  (index_ref plain_request
                     (world_of [three_body; seven_body])).2) = [rc2]
       ∧ render_context rc2 !! py "total_responses" = Some (PyInt 7))
  ∧ (∀ w',
       API_URL (settings w')
       = API_URL (settings (world_of [three_body; seven_body])) →
       reply w' = Return (ok seven_body) →
       (index_ref busy_request w').1
       = (index_ref busy_request
            (index_ref plain_request (world_of [three_body; seven_body])).2).1
       ∧ events_ref busy_request w'
         = events_ref busy_request
             (index_ref plain_request (world_of [three_body; seven_body])).2).
Proof.
  exact (index_stateless Json.loads one_template_engine
           plain_request busy_request (world_of [three_body; seven_body])
           (ok three_body) (ok seven_body)
           [PyInt 10; PyInt 20; PyInt 30]
           [PyNone; PyBool true; PyBool false; PyInt 0; PyInt (-1);
            PyList []; PyDict ∅]
           eq_refl eq_refl eq_refl eq_refl).
Defined.

Lemma index_sized_values_witness :
  rendered Json.loads one_template_engine plain_request
    (world_of [object_body]) 2
  ∧ rendered Json.loads one_template_engine plain_request
      (world_of [string_body]) 3
  ∧ rendered Json.loads one_template_engine plain_request
      (world_of [seven_body]) 7
  ∧ ∃ msg,
      failed Json.loads one_template_engine plain_request
        (world_of [number_body]) (TypeError msg).
Proof.
  split_and!.
  - assert (Z.of_nat (size ({[ py "a" := PyInt 1; py "b" := PyInt 2 ]}
                              : gmap pystr PyValue)) = 2%Z) as <-
      by (vm_compute; reflexivity).
    apply (index_sized_values Json.loads one_template_engine plain_request
             (world_of [object_body]) (ok object_body)
             (PyDict {[ py "a" := PyInt 1; py "b" := PyInt 2 ]}));
      [reflexivity|vm_compute; reflexivity].
  - apply (index_sized_values Json.loads one_template_engine plain_request
             (world_of [string_body]) (ok string_body) (PyStr (py "abc")));
      reflexivity.
  - apply (index_sized_values Json.loads one_template_engine plain_request
             (world_of [seven_body]) (ok seven_body)
             (PyList [PyNone; PyBool true; PyBool false; PyInt 0; PyInt (-1);
                      PyList []; PyDict ∅]));
      reflexivity.
  - apply (index_sized_values Json.loads one_template_engine plain_request
             (world_of [number_body]) (ok number_body) (PyInt 42));
      reflexivity.
Defined.

(** ** The further properties on concrete runs *)

Lemma index_template_failure_witness :
  (index Json.loads empty_engine plain_request (world_of [five_body])).1
  = Raise (TemplateDoesNotExist "dashboard/index.html")
  ∧ events_of Json.loads empty_engine plain_request (world_of [five_body]) =
      [ EvGet (api_call (world_of [five_body]));
        EvRender {| render_request := plain_request;
                    render_template_name := py "dashboard/index.html";
                    render_context :=
                      {[ py "title" := PyStr (py "Landing Page' Dashboard");
                         py "total_responses" := PyInt 5 ]} |} ].
Proof.
  apply (index_template_failure Json.loads empty_engine plain_request
           (world_of [five_body]) (ok five_body)
           (PyList [PyInt 1; PyInt 2; PyInt 3; PyInt 4; PyInt 5]) 5
           (TemplateDoesNotExist "dashboard/index.html")); reflexivity.
Defined.

Lemma index_response_witness :
  (index_ref busy_request (world_of [three_body])).1
  = Return {| http_status := 200; http_content := dashboard_page |}.
Proof.
  apply (proj2 (index_response Json.loads one_template_engine busy_request
                  (world_of [three_body])
                  {| http_status := 200; http_content := dashboard_page |})).
  exists (ok three_body), (PyList [PyInt 10; PyInt 20; PyInt 30]), 3%Z,
    dashboard_page.
  split_and!; reflexivity.
Defined.

Lemma index_failure_origin_witness :
  reply (world_of [number_body])
  = Raise (TypeError "object of type 'int' has no len()")
  ∨ (∃ r, reply (world_of [number_body]) = Return r
          ∧ Json.loads (content r)
            = Raise (TypeError "object of type 'int' has no len()"))
  ∨ (∃ r posts msg,
       reply (world_of [number_body]) = Return r
       ∧ Json.loads (content r) = Return posts
       ∧ len posts = Raise (TypeError "object of type 'int' has no len()")
       ∧ TypeError "object of type 'int' has no len()" = TypeError msg)
  ∨ (∃ r posts n,
       reply (world_of [number_body]) = Return r
       ∧ Json.loads (content r) = Return posts
       ∧ len posts = Return n
       ∧ one_template_engine (py "dashboard/index.html")
           {[ py "title" := PyStr (py "Landing Page' Dashboard");
              py "total_responses" := PyInt n ]} plain_request
         = Raise (TypeError "object of type 'int' has no len()")).
Proof.
  apply (index_failure_origin Json.loads one_template_engine plain_request
           (world_of [number_body])
           (TypeError "object of type 'int' has no len()")).
  reflexivity.
Defined.

Lemma index_ignores_status_code_witness :
  (index_ref plain_request
     (fresh_world posts_url
        (answering {| status_code := 200; content := five_body |}))).1
  = (index_ref plain_request
       (fresh_world posts_url
          (answering {| status_code := 500; content := five_body |}))).1
  ∧ events_ref plain_request
      (fresh_world posts_url
         (answering {| status_code := 200; content := five_body |}))
    = events_ref plain_request
        (fresh_world posts_url
           (answering {| status_code := 500; content := five_body |})).
Proof.
  apply (index_ignores_status_code Json.loads one_template_engine
           plain_request
           (fresh_world posts_url
              (answering {| status_code := 200; content := five_body |}))
           (fresh_world posts_url
              (answering {| status_code := 500; content := five_body |}))
           {| status_code := 200; content := five_body |}
           {| status_code := 500; content := five_body |});
    reflexivity.
Defined.

Lemma index_depends_on_count_witness :
  (index_ref plain_request (world_of [three_body])).1
  = (index_ref plain_request (world_of [string_body])).1
  ∧ events_ref plain_request (world_of [three_body])
    = events_ref plain_request (world_of [string_body]).
Proof.
  apply (index_depends_on_count Json.loads one_template_engine plain_request
           (world_of [three_body]) (world_of [string_body])
           (ok three_body) (ok string_body)
           (PyList [PyInt 10; PyInt 20; PyInt 30]) (PyStr (py "abc")));
    reflexivity.
Defined.

Lemma index_count_nonneg_witness :
  ∃ n,
    render_context (render_call plain_request 5) !! py "total_responses"
    = Some (PyInt n)
    ∧ (0 ≤ n)%Z.
Proof.
  apply (index_count_nonneg Json.loads one_template_engine plain_request
           (world_of [five_body]) (render_call plain_request 5)).
  vm_compute. left.
Defined.

Lemma handle_all_counts_witness :
  renders (trace (handle_all Json.loads one_template_engine
                    [plain_request; busy_request]
                    (world_of [three_body; seven_body])))
  = [render_call plain_request 3; render_call busy_request 7].
Proof.
  apply (handle_all_counts Json.loads one_template_engine
           [plain_request; busy_request]
           [[PyInt 10; PyInt 20; PyInt 30];
            [PyNone; PyBool true; PyBool false; PyInt 0; PyInt (-1);
             PyList []; PyDict ∅]]
           (world_of [three_body; seven_body])).
  - reflexivity.
  - intros [|[|k]] l Hk; cbn in Hk; [| |discriminate Hk].
    + injection Hk as <-. exists (ok three_body). split; reflexivity.
    + injection Hk as <-. exists (ok seven_body). split; reflexivity.
Defined.
